(** * IMDb 2024 dashboard: the cleaning pipeline and the filter engine

    A shallow embedding of [load_movies_data], [parse_duration],
    [filter_data] and the "shortest and longest" block of
    [src/filteratiom_app.py] and [src/visualization_app.py].

    Conventions of the embedding.
    - A pandas column of dtype float64 is a list of [float64] cells.  A
      finite cell is an exact rational: rounding is not modelled, the
      special values (NaN, +inf, -inf) are, because the pipeline's
      behaviour on degenerate batches is carried by them.  Signed zeros
      are not distinguished.
    - Text is [string] over 8-bit characters; the class [\d] of the
      regular expressions is the ASCII digits.
    - A Python exception is a constructor of [pyresult]. *)

From Stdlib Require Import Bool List Arith ZArith NArith QArith.
From Stdlib Require Import Ascii String Lia Permutation Sorted.
From Stdlib Require Decimal DecimalString DecimalPos DecimalN.
From Stdlib Require Import Lqa.
Import ListNotations.

Open Scope string_scope.
Open Scope list_scope.

(** ** float64 cells *)

Inductive float64 : Type :=
| Fin (q : Q)
| PInf
| NInf
| NaN.

Module F64.

Definition isna (x : float64) : bool :=
  match x with NaN => true | _ => false end.

Definition notna (x : float64) : bool := negb (isna x).

(** Sign of a finite value: the comparison with 0. *)
Definition Qsgn (q : Q) : comparison := (q ?= 0)%Q.

Definition inf_of (c : comparison) : float64 :=
  match c with Gt => PInf | Lt => NInf | Eq => NaN end.

Definition sgn (x : float64) : comparison :=
  match x with
  | Fin q => Qsgn q
  | PInf => Gt
  | NInf => Lt
  | NaN => Eq
  end.

Definition cmul (a b : comparison) : comparison :=
  match a, b with
  | Eq, _ | _, Eq => Eq
  | Gt, Gt | Lt, Lt => Gt
  | _, _ => Lt
  end.

Definition add (x y : float64) : float64 :=
  match x, y with
  | NaN, _ | _, NaN => NaN
  | Fin a, Fin b => Fin (a + b)
  | PInf, NInf | NInf, PInf => NaN
  | PInf, _ | _, PInf => PInf
  | NInf, _ | _, NInf => NInf
  end.

Definition mul (x y : float64) : float64 :=
  match x, y with
  | NaN, _ | _, NaN => NaN
  | Fin a, Fin b => Fin (a * b)
  | _, _ => inf_of (cmul (sgn x) (sgn y))
  end.

(** numpy's true division: [0/0] is NaN and [x/0] is an infinity; no
    exception is raised. *)
Definition div (x y : float64) : float64 :=
  match x, y with
  | NaN, _ | _, NaN => NaN
  | Fin a, Fin b =>
      if Qeq_bool b 0 then inf_of (Qsgn a) else Fin (a / b)
  | Fin _, _ => Fin 0
  | _, Fin b => match Qsgn b with Lt => inf_of (cmul (sgn x) Lt) | _ => x end
  | _, _ => NaN
  end.

(** [x <= y]; every comparison with NaN is false. *)
Definition leb (x y : float64) : bool :=
  match x, y with
  | NaN, _ | _, NaN => false
  | NInf, _ | _, PInf => true
  | Fin a, Fin b => Qle_bool a b
  | _, _ => false
  end.

Definition eqb (x y : float64) : bool := leb x y && leb y x.

Definition of_N (n : N) : float64 := Fin (inject_Z (Z.of_N n)).

(** [Series.fillna(v)] on one cell. *)
Definition fillna (v x : float64) : float64 :=
  if isna x then v else x.

(** [Series.sum()], [Series.count()], [Series.mean()], [Series.max()]
    and [Series.min()]: missing cells are skipped, and with no cell left
    the mean, the maximum and the minimum are NaN. *)
Definition dropna (l : list float64) : list float64 := filter notna l.

Definition sum (l : list float64) : float64 :=
  fold_left add (dropna l) (Fin 0).

Definition count (l : list float64) : nat := List.length (dropna l).

Definition mean (l : list float64) : float64 :=
  match count l with
  | O => NaN
  | S _ => div (sum l) (of_N (N.of_nat (count l)))
  end.

Definition max2 (x y : float64) : float64 := if leb x y then y else x.
Definition min2 (x y : float64) : float64 := if leb x y then x else y.

Definition max (l : list float64) : float64 :=
  match dropna l with
  | [] => NaN
  | x :: t => fold_left max2 t x
  end.

Definition min (l : list float64) : float64 :=
  match dropna l with
  | [] => NaN
  | x :: t => fold_left min2 t x
  end.

(** [Series.between(lo, hi)], inclusive on both sides. *)
Definition between (lo hi x : float64) : bool := leb lo x && leb x hi.

End F64.

(** ** Text operations *)

Module PyStr.

(** [str.replace(old, new)] for the one-character patterns of the
    source (['K'], [','] and ['h']): every occurrence is replaced. *)
Fixpoint replace (old : ascii) (new : string) (s : string) : string :=
  match s with
  | EmptyString => EmptyString
  | String c r =>
      if Ascii.eqb c old then new ++ replace old new r
      else String c (replace old new r)
  end.

Definition is_digit (c : ascii) : bool :=
  let n := N_of_ascii c in ((48 <=? n) && (n <=? 57))%N.

Definition digit_val (c : ascii) : N := (N_of_ascii c - 48)%N.

(** The longest prefix made of digits. *)
Fixpoint take_digits (s : string) : string :=
  match s with
  | EmptyString => EmptyString
  | String c r => if is_digit c then String c (take_digits r) else EmptyString
  end.

(** [str.extract(r'(\d+)')]: the leftmost, longest run of digits, or
    nothing (a missing cell) when the text has no digit. *)
Fixpoint extract_digits (s : string) : option string :=
  match s with
  | EmptyString => None
  | String c r =>
      if is_digit c then Some (String c (take_digits r))
      else extract_digits r
  end.

(** The value of a run of digits in base ten ([int(...)], and
    [pd.to_numeric] on such a text). *)
Fixpoint int_acc (acc : N) (s : string) : N :=
  match s with
  | EmptyString => acc
  | String c r => int_acc (acc * 10 + digit_val c)%N r
  end.

Definition int (s : string) : N := int_acc 0 s.

(** [re.findall(r'(\d+)x', d)[0]] for a one-character [x]: the group of
    the leftmost match.  [run] holds the digits read since the last
    character that was not a digit. *)
Fixpoint findall_scan (x : ascii) (run : string) (s : string) : option string :=
  match s with
  | EmptyString => None
  | String c r =>
      if is_digit c then findall_scan x (run ++ String c EmptyString) r
      else if Ascii.eqb c x && negb (String.eqb run EmptyString)
           then Some run
           else findall_scan x EmptyString r
  end.

Definition findall_first (x : ascii) (s : string) : option string :=
  findall_scan x EmptyString s.

(** Python's [str.isspace] on the ASCII range. *)
Definition is_space (c : ascii) : bool :=
  let n := N_of_ascii c in
  (((9 <=? n) && (n <=? 13)) || ((28 <=? n) && (n <=? 32)))%N.

Fixpoint lstrip (s : string) : string :=
  match s with
  | EmptyString => EmptyString
  | String c r => if is_space c then lstrip r else s
  end.

Fixpoint rstrip (s : string) : string :=
  match s with
  | EmptyString => EmptyString
  | String c r =>
      match rstrip r with
      | EmptyString => if is_space c then EmptyString else String c EmptyString
      | r' => String c r'
      end
  end.

Definition strip (s : string) : string := rstrip (lstrip s).

Definition lower_char (c : ascii) : ascii :=
  let n := N_of_ascii c in
  if ((65 <=? n) && (n <=? 90))%N then ascii_of_N (n + 32) else c.

Fixpoint lower (s : string) : string :=
  match s with
  | EmptyString => EmptyString
  | String c r => String (lower_char c) (lower r)
  end.

End PyStr.

(** ** Rows of the data frame *)

(** A cell as the database driver hands it over: a number, a text or NULL. *)
Inductive cell : Type :=
| CNum (x : float64)
| CStr (s : string)
| CNull.

(** A row of [SELECT Title, Genre, Rating, Voting, Duration].  [Voting]
    and [Duration] are held as the text [astype(str)] gives, [Genre] as
    the text the [.str] accessor works on. *)
Record RawMovie : Type := mkRaw {
  raw_Title : string;
  raw_Genre : string;
  raw_Rating : cell;
  raw_Voting : string;
  raw_Duration : string
}.

(** A row of the cleaned frame.  The three derived columns are NaN until
    [compute_score] fills them. *)
Record Movie : Type := mkMovie {
  Title : string;
  Genre : string;
  Rating : float64;
  Voting : float64;
  Duration : float64;
  Voting_norm : float64;
  Rating_norm : float64;
  Score : float64
}.

Inductive exn : Type := ValueError | KeyError.

Inductive pyresult (A : Type) : Type :=
| Returned (a : A)
| Raised (e : exn).
Arguments Returned {A} a.
Arguments Raised {A} e.

(** ** Cleaning of one cell *)

(** Lines 23-28: [astype(str).str.replace('K','000').str.replace(',','')
    .str.extract(r'(\d+)')]. *)
Definition voting_digits (s : string) : option string :=
  PyStr.extract_digits (PyStr.replace "," "" (PyStr.replace "K" "000" s)).

(** [pd.to_numeric] on the extracted text: a run of digits, or missing. *)
Definition to_numeric_digits (o : option string) : float64 :=
  match o with
  | Some d => F64.of_N (PyStr.int d)
  | None => NaN
  end.

(** Line 29: [pd.to_numeric(..., errors='coerce').fillna(0)]. *)
Definition normalize_voting (s : string) : float64 :=
  F64.fillna (Fin 0) (to_numeric_digits (voting_digits s)).

(** Lines 39-45. *)
Definition parse_duration (d : string) : option N :=
  let hours :=
    match PyStr.findall_first "h" d with Some m => PyStr.int m | None => 0%N end in
  let minutes :=
    match PyStr.findall_first "m" d with Some m => PyStr.int m | None => 0%N end in
  if (negb (hours =? 0) || negb (minutes =? 0))%N
  then Some (hours * 60 + minutes)%N
  else None.

(** A result of [parse_duration] as a cell of the column: [None] is a
    missing value. *)
Definition duration_cell (o : option N) : float64 :=
  match o with
  | Some n => F64.of_N n
  | None => NaN
  end.

(** Lines 35-38 and 47: [str.replace('h','h ')] then
    [apply(parse_duration)]. *)
Definition clean_duration (s : string) : float64 :=
  duration_cell (parse_duration (PyStr.replace "h" "h " s)).

(** Line 51: [str.strip().str.lower()]. *)
Definition normalize_genre (s : string) : string :=
  PyStr.lower (PyStr.strip s).

(** ** Whole columns *)

(** Line 48: [df['Duration'].fillna(df['Duration'].mean())]. *)
Definition set_Duration (r : Movie) (d : float64) : Movie :=
  mkMovie (Title r) (Genre r) (Rating r) (Voting r) d
          (Voting_norm r) (Rating_norm r) (Score r).

Definition impute_duration (df : list Movie) : list Movie :=
  let m := F64.mean (map Duration df) in
  map (fun r => set_Duration r (F64.fillna m (Duration r))) df.

(** Lines 54-56. *)
Definition half : float64 := Fin (1 # 2).
Definition ten : float64 := Fin (10 # 1).

Definition score_row (vmax : float64) (r : Movie) : Movie :=
  let vn := F64.div (Voting r) vmax in
  let rn := F64.div (Rating r) ten in
  mkMovie (Title r) (Genre r) (Rating r) (Voting r) (Duration r)
          vn rn (F64.add (F64.mul rn half) (F64.mul vn half)).

Definition compute_score (df : list Movie) : list Movie :=
  map (score_row (F64.max (map Voting df))) df.

(** [drop_duplicates(subset=['Title'], keep='first')]: [seen] holds the
    titles already kept. *)
Fixpoint drop_duplicates_from (seen : list string) (df : list Movie) : list Movie :=
  match df with
  | [] => []
  | r :: t =>
      if existsb (String.eqb (Title r)) seen
      then drop_duplicates_from seen t
      else r :: drop_duplicates_from (Title r :: seen) t
  end.

Definition drop_duplicates (df : list Movie) : list Movie :=
  drop_duplicates_from [] df.

(** ** The filter of [filteratiom_app.py], lines 100-107 *)

Definition isin (g : string) (genres : list string) : bool :=
  existsb (String.eqb g) genres.

Definition filter_mask (genres : list string) (rating_min rating_max : float64)
    (votes dur_range : float64 * float64) (r : Movie) : bool :=
  isin (Genre r) genres
  && F64.between rating_min rating_max (Rating r)
  && F64.between (fst votes) (snd votes) (Voting r)
  && F64.between (fst dur_range) (snd dur_range) (Duration r).

Definition filter_data (df : list Movie) (genres : list string)
    (rating_min rating_max : float64) (votes dur_range : float64 * float64)
    : list Movie :=
  filter (filter_mask genres rating_min rating_max votes dur_range) df.

(** ** Block 8: shortest and longest movies *)

Fixpoint index_where (p : float64 -> bool) (l : list float64) : option nat :=
  match l with
  | [] => None
  | x :: t => if p x then Some O else option_map S (index_where p t)
  end.

(** [Series.idxmin()] and [Series.idxmax()] followed by [.loc]: the row of
    the first occurrence of the extreme value, missing cells skipped.  On
    an empty column pandas raises [ValueError]; on a column of missing
    cells only, the label is missing and the lookup raises [KeyError]. *)
Definition idx_extreme (ext : list float64 -> float64) (col : list float64)
    : pyresult nat :=
  match col with
  | [] => Raised ValueError
  | _ =>
      match index_where (F64.eqb (ext col)) col with
      | Some i => Returned i
      | None => Raised KeyError
      end
  end.

Definition idxmin : list float64 -> pyresult nat := idx_extreme F64.min.
Definition idxmax : list float64 -> pyresult nat := idx_extreme F64.max.

(** What the page shows: a table of rows [Title, Genre, Duration], or a
    line of text. *)
Inductive widget : Type :=
| Table (rows : list (string * string * float64))
| Text (s : string).

Definition loc (df : list Movie) (i : nat) : pyresult (string * string * float64) :=
  match nth_error df i with
  | Some r => Returned (Title r, Genre r, Duration r)
  | None => Raised KeyError
  end.

Definition bind {A B : Type} (m : pyresult A) (k : A -> pyresult B) : pyresult B :=
  match m with
  | Returned a => k a
  | Raised e => Raised e
  end.

Notation "x <- m ;; k" := (bind m (fun x => k))
  (at level 61, m at next level, right associativity).

(** [visualization_app.py], lines 159-161. *)
Definition shortest_longest (filtered_df : list Movie) : pyresult widget :=
  i <- idxmin (map Duration filtered_df) ;;
  shortest_movie <- loc filtered_df i ;;
  j <- idxmax (map Duration filtered_df) ;;
  longest_movie <- loc filtered_df j ;;
  Returned (Table [shortest_movie; longest_movie]).

(** [filteratiom_app.py], lines 185-190: the same block behind the test
    [if not filtered_df.empty]. *)
Definition shortest_longest_guarded (filtered_df : list Movie) : pyresult widget :=
  match filtered_df with
  | [] => Returned (Text "No movies match the filters.")
  | _ => shortest_longest filtered_df
  end.

(** ** The whole of [load_movies_data] *)

Section Loader.

(** Two library routines are parameters of the embedding: the reading of
    a number out of a text by [pd.to_numeric] (NaN when the text is not
    numeric, as [errors='coerce'] asks), and the sort of numpy behind
    [sort_values], which orders rows by ascending [Voting]. *)
Variable str_to_float : string -> float64.
Variable argsort : list Movie -> list Movie.

Definition to_numeric (c : cell) : float64 :=
  match c with
  | CNum x => x
  | CStr s => str_to_float s
  | CNull => NaN
  end.

(** Line 32: [pd.to_numeric(df['Rating'], errors='coerce').fillna(0)]. *)
Definition normalize_rating (c : cell) : float64 :=
  F64.fillna (Fin 0) (to_numeric c).

(** Lines 22-51, one row at a time; [Duration] is still the result of
    [parse_duration]. *)
Definition clean_row (r : RawMovie) : Movie :=
  mkMovie (raw_Title r)
          (normalize_genre (raw_Genre r))
          (normalize_rating (raw_Rating r))
          (normalize_voting (raw_Voting r))
          (clean_duration (raw_Duration r))
          NaN NaN NaN.

(** [sort_values(by=['Voting'], ascending=False)] as pandas' [nargsort]
    does it: the rows with a missing key are set aside and put last, the
    others are reversed, sorted in ascending order and reversed again. *)
Definition sort_values (df : list Movie) : list Movie :=
  let keyed := filter (fun r => F64.notna (Voting r)) df in
  let missing := filter (fun r => F64.isna (Voting r)) df in
  rev (argsort (rev keyed)) ++ missing.

(** Line 59. *)
Definition deduplicate (df : list Movie) : list Movie :=
  drop_duplicates (sort_values df).

(** The frame before line 59. *)
Definition scored (rows : list RawMovie) : list Movie :=
  compute_score (impute_duration (map clean_row rows)).

Definition load_movies_data (rows : list RawMovie) : list Movie :=
  deduplicate (scored rows).

End Loader.

(** Insertion sort on the [Voting] key: a stable sort, and the routine
    numpy's generic quicksort ends on for a short array.  It is the
    instance at which the statements about [sort_values] are tried. *)
Fixpoint insert_row (r : Movie) (l : list Movie) : list Movie :=
  match l with
  | [] => [r]
  | x :: t =>
      if F64.leb (Voting r) (Voting x) then r :: l else x :: insert_row r t
  end.

Fixpoint insertion_sort (l : list Movie) : list Movie :=
  match l with
  | [] => []
  | r :: t => insert_row r (insertion_sort t)
  end.

(** ** The filter of the other page *)

(** [visualization_app.py], lines 78-83: a floor on [Rating] and on
    [Voting], a range on [Duration]. *)
Definition visualization_mask (selected_genre : list string)
    (min_rating min_votes : float64) (duration_range : float64 * float64)
    (r : Movie) : bool :=
  isin (Genre r) selected_genre
  && F64.leb min_rating (Rating r)
  && F64.leb min_votes (Voting r)
  && F64.between (fst duration_range) (snd duration_range) (Duration r).

Definition visualization_filter (df : list Movie) (selected_genre : list string)
    (min_rating min_votes : float64) (duration_range : float64 * float64)
    : list Movie :=
  filter (visualization_mask selected_genre min_rating min_votes duration_range) df.

(** * Vocabulary of the statements *)

(** Shapes of texts. *)
Module Shape.
Import PyStr.

Fixpoint all_digits (s : string) : bool :=
  match s with
  | EmptyString => true
  | String c r => is_digit c && all_digits r
  end.

Fixpoint no_digit (s : string) : bool :=
  match s with
  | EmptyString => true
  | String c r => negb (is_digit c) && no_digit r
  end.

Definition starts_with_digit (s : string) : bool :=
  match s with
  | EmptyString => false
  | String c _ => is_digit c
  end.

(** The digits left pending after [s] has been read: the state that
    [findall_scan] carries. *)
Fixpoint pending (run : string) (s : string) : string :=
  match s with
  | EmptyString => run
  | String c r =>
      if is_digit c then pending (run ++ String c EmptyString) r
      else pending EmptyString r
  end.


Definition value_of (o : option string) : N :=
  match o with Some m => int m | None => 0%N end.

End Shape.

(** The contract of the sort behind [sort_values]. *)
Definition Voting_le (a b : Movie) : Prop :=
  F64.leb (Voting a) (Voting b) = true.


Definition has_votes (df : list Movie) : Prop :=
  Forall (fun r => F64.notna (Voting r) = true) df.


Definition sorts (argsort : list Movie -> list Movie) : Prop :=
  forall l, has_votes l ->
    Permutation l (argsort l) /\ StronglySorted Voting_le (argsort l).


(** [Subseq l' l]: [l'] is [l] with some rows left out, the others in
    their order. *)
Inductive Subseq {A : Type} : list A -> list A -> Prop :=
| Subseq_nil : Subseq [] []
| Subseq_skip x l' l : Subseq l' l -> Subseq l' (x :: l)
| Subseq_keep x l' l : Subseq l' l -> Subseq (x :: l') (x :: l).

(** The defined results of [parse_duration] over a batch, and their sum. *)
Fixpoint defined (os : list (option N)) : list N :=
  match os with
  | [] => []
  | Some n :: t => n :: defined t
  | None :: t => defined t
  end.

Definition Nsum (l : list N) : N := fold_right N.add 0%N l.


(** ** Sample data *)

(** An instance of the number reader: it reads unsigned integer literals
    and nothing else. *)
Definition read_int (s : string) : float64 :=
  match s with
  | EmptyString => NaN
  | _ => if Shape.all_digits s then F64.of_N (PyStr.int s) else NaN
  end.

(** Three rows without a single vote. *)
Definition three_zero_rows : list RawMovie :=
  [ mkRaw "Alpha" " Drama" (CNum (Fin 7)) "0" "2h";
    mkRaw "Beta" "Action " (CStr "8") "" "1h 30m";
    mkRaw "Gamma" "Comedy" (CStr "n/a") "none" "90m" ].


(** A row whose rating is out of range in the source. *)
Definition rating_11_rows : list RawMovie :=
  [ mkRaw "Alpha" "Drama" (CNum (Fin 11)) "1,200" "2h 15m" ].

(** Two versions of one title with the same votes, and a third row. *)
Definition tied_rows : list RawMovie :=
  [ mkRaw "Alpha" "Drama" (CNum (Fin 7)) "1,200" "2h";
    mkRaw "Beta" "Action" (CNum (Fin 8)) "3K" "1h 30m";
    mkRaw "Alpha" "Thriller" (CNum (Fin 6)) "1200" "2h 5m" ].

(** ** Text renderings of cleaned cells *)








(** ** Further vocabulary *)

(** A cell between 0 and 1. *)
Definition in_unit (x : float64) : Prop :=
  F64.leb (Fin 0) x = true /\ F64.leb x (Fin 1) = true.

(** A frame of three rows with their columns filled. *)
Definition sample_frame : list Movie :=
  [ mkMovie "Alpha" "drama" (Fin 7) (Fin 1200) (Fin 120) NaN NaN NaN;
    mkMovie "Beta" "action" (Fin 8) (Fin 3000) (Fin 90) NaN NaN NaN;
    mkMovie "Gamma" "drama" (Fin 9) (Fin 500) (Fin 150) NaN NaN NaN ].

(** * Properties of the text operations *)

Module PyStrFacts.
Import PyStr Shape.

Lemma append_nil_r (s : string) : (s ++ "")%string = s.
Proof. induction s as [|c s IH]; simpl; [reflexivity | now rewrite IH]. Qed.

Lemma append_assoc (a b c : string) :
  ((a ++ b) ++ c)%string = (a ++ (b ++ c))%string.
Proof. induction a as [|x a IH]; simpl; [reflexivity | now rewrite IH]. Qed.

Lemma take_digits_app (run post : string) :
  all_digits run = true -> starts_with_digit post = false ->
  take_digits (run ++ post) = run.
Proof.
  intros Hr Hp. induction run as [|c run IH]; simpl in *.
  - destruct post as [|d post]; simpl in *; [reflexivity | now rewrite Hp].
  - apply andb_true_iff in Hr as [Hc Hr]. rewrite Hc. f_equal. auto.
Qed.

Lemma extract_digits_none (s : string) :
  no_digit s = true -> extract_digits s = None.
Proof.
  induction s as [|c s IH]; simpl; [reflexivity|].
  intros H. apply andb_true_iff in H as [Hc Hs].
  apply negb_true_iff in Hc. rewrite Hc. auto.
Qed.

Lemma extract_digits_app (pre run post : string) :
  no_digit pre = true -> all_digits run = true -> run <> EmptyString ->
  starts_with_digit post = false ->
  extract_digits (pre ++ run ++ post) = Some run.
Proof.
  intros Hpre Hrun Hne Hpost. induction pre as [|c pre IH]; simpl in *.
  - destruct run as [|d run]; [congruence|]. simpl in *.
    apply andb_true_iff in Hrun as [Hd Hrun]. rewrite Hd.
    now rewrite take_digits_app.
  - apply andb_true_iff in Hpre as [Hc Hpre].
    apply negb_true_iff in Hc. rewrite Hc. auto.
Qed.

(** Every text either has no digit or splits around its first run. *)
Lemma first_run_exists (s : string) :
  no_digit s = true \/
  exists pre run post,
    s = (pre ++ run ++ post)%string /\ no_digit pre = true /\
    all_digits run = true /\ run <> EmptyString /\
    starts_with_digit post = false.
Proof.
  assert (Htake : forall t, exists post,
             t = (take_digits t ++ post)%string /\
             all_digits (take_digits t) = true /\
             starts_with_digit post = false).
  { induction t as [|c t [post [E [A P]]]]; simpl.
    - exists EmptyString. auto.
    - destruct (is_digit c) eqn:Hc.
      + exists post. simpl. rewrite Hc, A. repeat split; auto. now rewrite <- E.
      + exists (String c t). simpl. now rewrite Hc. }
  induction s as [|c s IH]; simpl; [now left|].
  destruct (is_digit c) eqn:Hc.
  - right. destruct (Htake s) as [post [E [A P]]].
    exists EmptyString, (String c (take_digits s)), post. simpl.
    rewrite Hc, A. repeat split; auto; [now rewrite <- E | discriminate].
  - destruct IH as [IH | [pre [run [post [E H]]]]]; [left; now rewrite IH|].
    right. exists (String c pre), run, post. simpl. rewrite Hc.
    split; [now rewrite E | exact H].
Qed.

Lemma findall_scan_app (x : ascii) (pre s run : string) :
  findall_scan x run (pre ++ s) =
  match findall_scan x run pre with
  | Some m => Some m
  | None => findall_scan x (pending run pre) s
  end.
Proof.
  revert run. induction pre as [|c pre IH]; intros run; simpl; [reflexivity|].
  destruct (is_digit c); [apply IH|].
  destruct (Ascii.eqb c x && negb (String.eqb run ""))%bool; [reflexivity | apply IH].
Qed.

Lemma findall_scan_digits (x : ascii) (ds run : string) :
  all_digits ds = true ->
  findall_scan x run ds = None /\ pending run ds = (run ++ ds)%string.
Proof.
  revert run. induction ds as [|c ds IH]; intros run H; simpl in *.
  - now rewrite append_nil_r.
  - apply andb_true_iff in H as [Hc H]. rewrite Hc.
    destruct (IH (run ++ String c "")%string H) as [E1 E2].
    split; [exact E1|]. rewrite E2, append_assoc. reflexivity.
Qed.

Lemma findall_scan_no_digit (x : ascii) (s run : string) :
  no_digit s = true -> run = EmptyString ->
  findall_scan x run s = None /\ pending run s = EmptyString.
Proof.
  intros H ->. induction s as [|c s IH]; simpl in *; [auto|].
  apply andb_true_iff in H as [Hc H]. apply negb_true_iff in Hc.
  rewrite Hc. simpl. rewrite andb_false_r. auto.
Qed.

(** The leftmost match of [(\d+)x]: a run of digits directly followed by
    [x], after a text in which the pattern does not occur and which
    does not end in a digit. *)
Lemma findall_first_hit (x : ascii) (pre run post : string) :
  findall_first x pre = None -> pending EmptyString pre = EmptyString ->
  all_digits run = true -> run <> EmptyString -> is_digit x = false ->
  findall_first x (pre ++ run ++ String x post) = Some run.
Proof.
  intros Hpre Hpend Hrun Hne Hx. unfold findall_first in *.
  rewrite findall_scan_app, Hpre, Hpend.
  rewrite findall_scan_app.
  destruct (findall_scan_digits x run EmptyString Hrun) as [E1 E2].
  rewrite E1, E2. simpl. rewrite Hx, Ascii.eqb_refl. simpl.
  destruct run; [congruence | reflexivity].
Qed.



End PyStrFacts.

(** * Properties of [parse_duration] *)

Module DurationFacts.
Import PyStr Shape PyStrFacts.



Lemma parse_duration_unfold (d : string) :
  parse_duration d =
  let hours := value_of (findall_first "h" d) in
  let minutes := value_of (findall_first "m" d) in
  if (hours * 60 + minutes =? 0)%N then None
  else Some (hours * 60 + minutes)%N.
Proof.
  unfold parse_duration. cbv zeta.
  change (match findall_first "h" d with Some m => int m | None => 0%N end)
    with (value_of (findall_first "h" d)).
  change (match findall_first "m" d with Some m => int m | None => 0%N end)
    with (value_of (findall_first "m" d)).
  generalize (value_of (findall_first "h" d)) as h.
  generalize (value_of (findall_first "m" d)) as m. intros m h.
  destruct (N.eqb_spec h 0), (N.eqb_spec m 0),
    (N.eqb_spec (h * 60 + m) 0); simpl; try reflexivity; lia.
Qed.

(** Both components: [<H>h<sep><M>m...]. *)
Lemma both_components (H M sep post : string) :
  all_digits H = true -> H <> EmptyString ->
  all_digits M = true -> M <> EmptyString -> no_digit sep = true ->
  let d := (H ++ String "h" (sep ++ M ++ String "m" post))%string in
  findall_first "h" d = Some H /\ findall_first "m" d = Some M.
Proof.
  intros HH HHne HM HMne Hsep d. subst d. split.
  - apply (findall_first_hit "h" EmptyString H); auto.
  - replace (H ++ String "h" (sep ++ M ++ String "m" post))%string
      with ((H ++ String "h" sep) ++ M ++ String "m" post)%string
      by (rewrite append_assoc; reflexivity).
    destruct (findall_scan_digits "m" H EmptyString HH) as [E1 E2].
    destruct (findall_scan_no_digit "m" sep EmptyString Hsep eq_refl) as [E3 E4].
    apply findall_first_hit; auto; unfold findall_first.
    + rewrite findall_scan_app, E1, E2. simpl. exact E3.
    + clear E1 E3. revert E2. generalize (@EmptyString) at 1 3.
      intros run E2.
      assert (G : forall a b r, pending r (a ++ b) = pending (pending r a) b).
      { induction a as [|c a IH]; intros b r; simpl; [reflexivity|].
        destruct (is_digit c); apply IH. }
      rewrite G, E2. simpl. exact E4.
Qed.

(** Hours only: [<H>h] followed by a text without digits. *)
Lemma hours_only (H post : string) :
  all_digits H = true -> H <> EmptyString -> no_digit post = true ->
  let d := (H ++ String "h" post)%string in
  findall_first "h" d = Some H /\ findall_first "m" d = None.
Proof.
  intros HH HHne Hpost d. subst d. split.
  - apply (findall_first_hit "h" EmptyString H); auto.
  - unfold findall_first. rewrite findall_scan_app.
    destruct (findall_scan_digits "m" H EmptyString HH) as [E1 E2].
    rewrite E1. simpl.
    apply (findall_scan_no_digit "m" post EmptyString Hpost eq_refl).
Qed.

(** Minutes only: [<M>m] between two texts without digits. *)
Lemma minutes_only (pre M post : string) :
  no_digit pre = true -> all_digits M = true -> M <> EmptyString ->
  no_digit post = true ->
  let d := (pre ++ M ++ String "m" post)%string in
  findall_first "h" d = None /\ findall_first "m" d = Some M.
Proof.
  intros Hpre HM HMne Hpost d. subst d.
  destruct (findall_scan_no_digit "m" pre EmptyString Hpre eq_refl) as [E1 E2].
  destruct (findall_scan_no_digit "h" pre EmptyString Hpre eq_refl) as [E3 E4].
  split.
  - unfold findall_first. rewrite findall_scan_app, E3, E4.
    rewrite findall_scan_app.
    destruct (findall_scan_digits "h" M EmptyString HM) as [E5 E6].
    rewrite E5. simpl.
    apply (findall_scan_no_digit "h" post EmptyString Hpost eq_refl).
  - apply findall_first_hit; auto.
Qed.

Lemma neither_component (d : string) :
  no_digit d = true ->
  findall_first "h" d = None /\ findall_first "m" d = None.
Proof.
  intros H. split.
  - apply (findall_scan_no_digit "h" d EmptyString H eq_refl).
  - apply (findall_scan_no_digit "m" d EmptyString H eq_refl).
Qed.

End DurationFacts.

(** * The cleaning of one cell *)

Module CellClaims.
Import PyStr Shape PyStrFacts DurationFacts.

Lemma normalize_voting_of_digits (s run : string) :
  voting_digits s = Some run -> normalize_voting s = F64.of_N (int run).
Proof. unfold normalize_voting. intros ->. reflexivity. Qed.

Lemma normalize_voting_of_none (s : string) :
  voting_digits s = None -> normalize_voting s = Fin 0.
Proof. unfold normalize_voting. intros ->. reflexivity. Qed.

(** C2, as the claim words it, fails on ["8.2K"]: the text becomes
    ["8.2000"], whose first run of digits is ["8"], so the cell is 8 and
    not 8000. *)
Lemma normalize_voting_8_2K :
  PyStr.replace "," "" (PyStr.replace "K" "000" "8.2K") = "8.2000" /\
  voting_digits "8.2K" = Some "8" /\
  normalize_voting "8.2K" = F64.of_N 8 /\
  normalize_voting "8.2K" <> F64.of_N 8000.
Proof. repeat split; try reflexivity. discriminate. Qed.

(** C2 (amended): [normalize_voting] never fails and yields a
    non-negative integer: every ["K"] is expanded into ["000"], the commas
    are removed, and the value is that of the first run of digits of the
    text so obtained, or 0 when it has no digit.  ["12,345"] gives 12345,
    ["12K"] gives 12000 and ["8.2K"] gives 8. *)
Theorem normalize_voting_spec : forall s : string,
  let t := PyStr.replace "," "" (PyStr.replace "K" "000" s) in
  (exists n : N, normalize_voting s = F64.of_N n) /\
  (no_digit t = true -> normalize_voting s = Fin 0) /\
  (forall pre run post : string,
      t = (pre ++ run ++ post)%string ->
      no_digit pre = true -> all_digits run = true -> run <> EmptyString ->
      starts_with_digit post = false ->
      normalize_voting s = F64.of_N (int run)) /\
  normalize_voting "12,345" = F64.of_N 12345 /\
  normalize_voting "12K" = F64.of_N 12000 /\
  normalize_voting "1K5" = F64.of_N 10005 /\
  normalize_voting "8.2K" = F64.of_N 8 /\
  normalize_voting "no votes" = Fin 0.
Proof.
  intros s t. repeat split; try reflexivity.
  - unfold normalize_voting. destruct (voting_digits s) as [run|].
    + exists (int run). reflexivity.
    + exists 0%N. reflexivity.
  - intros H. apply normalize_voting_of_none. unfold voting_digits.
    fold t. now apply extract_digits_none.
  - intros pre run post E Hpre Hrun Hne Hpost.
    apply normalize_voting_of_digits. unfold voting_digits. fold t.
    rewrite E. now apply extract_digits_app.
Qed.

(** C6, as the claim words it, fails on ["0h"]: the hours component is
    recognised, yet the result is undefined and not [0*60 + 0]. *)
Lemma parse_duration_0h :
  findall_first "h" (PyStr.replace "h" "h " "0h") = Some "0" /\
  parse_duration (PyStr.replace "h" "h " "0h") = None /\
  clean_duration "0h" = NaN.
Proof. repeat split; reflexivity. Qed.

(** C6 (amended): [parse_duration] recognises an hours component [<H>h]
    and a minutes component [<M>m] independently and returns
    [hours*60 + minutes] when that total is not zero; with both, with
    hours only or with minutes only.  A text with neither component gives
    the undefined result, and so does a text whose components are all
    zero.  ["2h 15m"] gives 135, ["2h"] 120, ["45m"] 45 and [""] is
    undefined. *)
Theorem parse_duration_spec : forall (H M sep pre post : string),
  all_digits H = true -> H <> EmptyString ->
  all_digits M = true -> M <> EmptyString ->
  no_digit sep = true -> no_digit pre = true -> no_digit post = true ->
  let h := int H in
  let m := int M in
  parse_duration (H ++ String "h" (sep ++ M ++ String "m" post)) =
    (if (h * 60 + m =? 0)%N then None else Some (h * 60 + m)%N) /\
  parse_duration (H ++ String "h" post) =
    (if (h =? 0)%N then None else Some (h * 60)%N) /\
  parse_duration (pre ++ M ++ String "m" post) =
    (if (m =? 0)%N then None else Some m) /\
  parse_duration pre = None /\
  (forall d : string,
      findall_first "h" d = None -> findall_first "m" d = None ->
      parse_duration d = None) /\
  clean_duration "2h 15m" = F64.of_N 135 /\
  clean_duration "2h" = F64.of_N 120 /\
  clean_duration "45m" = F64.of_N 45 /\
  clean_duration "" = NaN.
Proof.
  intros H M sep pre post HH HHne HM HMne Hsep Hpre Hpost h m.
  repeat split; try reflexivity.
  - destruct (both_components H M sep post HH HHne HM HMne Hsep) as [E1 E2].
    rewrite parse_duration_unfold. cbv zeta. rewrite E1, E2. reflexivity.
  - destruct (hours_only H post HH HHne Hpost) as [E1 E2].
    rewrite parse_duration_unfold. cbv zeta. rewrite E1, E2. simpl value_of.
    fold h. rewrite N.add_0_r.
    destruct (N.eqb_spec h 0), (N.eqb_spec (h * 60) 0); try reflexivity; lia.
  - destruct (minutes_only pre M post Hpre HM HMne Hpost) as [E1 E2].
    rewrite parse_duration_unfold. cbv zeta. rewrite E1, E2. reflexivity.
  - destruct (neither_component pre Hpre) as [E1 E2].
    rewrite parse_duration_unfold. cbv zeta. rewrite E1, E2. reflexivity.
  - intros d E1 E2.
    rewrite parse_duration_unfold. cbv zeta. rewrite E1, E2. reflexivity.
Qed.

Lemma parse_duration_spec_witness :
  parse_duration "2h 15m" = Some 135%N /\
  parse_duration "2h" = Some 120%N /\
  parse_duration "about 15m" = Some 15%N /\
  parse_duration "about " = None.
Proof.
  pose proof (parse_duration_spec "2" "15" " " "about " ""
                eq_refl ltac:(discriminate) eq_refl ltac:(discriminate)
                eq_refl eq_refl eq_refl) as P.
  cbv zeta in P. destruct P as [P1 [P2 [P3 [P4 _]]]].
  split; [exact P1 | split; [exact P2 | split; [exact P3 | exact P4]]].
Defined.






End CellClaims.

(** * Order and aggregates of float64 cells *)

Module F64Facts.
Import F64.

Lemma leb_notna (x y : float64) :
  leb x y = true -> notna x = true /\ notna y = true.
Proof. destruct x, y; simpl; intros H; try discriminate; auto. Qed.

Lemma leb_refl (x : float64) : notna x = true -> leb x x = true.
Proof.
  destruct x; simpl; intros H; try reflexivity; try discriminate.
  apply Qle_bool_iff. apply Qle_refl.
Qed.

Lemma leb_trans (x y z : float64) :
  leb x y = true -> leb y z = true -> leb x z = true.
Proof.
  destruct x, y, z; simpl; intros H1 H2; try reflexivity; try discriminate.
  apply Qle_bool_iff. apply Qle_bool_iff in H1, H2. eapply Qle_trans; eauto.
Qed.

Lemma leb_total (x y : float64) :
  notna x = true -> notna y = true -> leb x y = false -> leb y x = true.
Proof.
  destruct x, y; simpl; intros Hx Hy H; try reflexivity; try discriminate.
  apply Qle_bool_iff. destruct (Qlt_le_dec q0 q) as [L|L].
  - now apply Qlt_le_weak.
  - apply Qle_bool_iff in L. congruence.
Qed.

Lemma eqb_refl (x : float64) : notna x = true -> eqb x x = true.
Proof. intros H. unfold eqb. now rewrite leb_refl. Qed.

Lemma eqb_leb (x y : float64) :
  eqb x y = true -> leb x y = true /\ leb y x = true.
Proof. unfold eqb. intros H. now apply andb_true_iff in H. Qed.

Lemma max2_notna (x y : float64) :
  notna x = true -> notna y = true -> notna (max2 x y) = true.
Proof. unfold max2. now destruct (leb x y). Qed.

Lemma max2_ub (x y : float64) :
  notna x = true -> notna y = true ->
  leb x (max2 x y) = true /\ leb y (max2 x y) = true.
Proof.
  intros Hx Hy. unfold max2. destruct (leb x y) eqn:E.
  - split; [reflexivity || exact E | now apply leb_refl].
  - split; [now apply leb_refl | now apply leb_total].
Qed.

Lemma fold_max2_ub (t : list float64) (a : float64) :
  notna a = true -> Forall (fun x => notna x = true) t ->
  notna (fold_left max2 t a) = true /\
  leb a (fold_left max2 t a) = true /\
  Forall (fun x => leb x (fold_left max2 t a) = true) t.
Proof.
  revert a. induction t as [|y t IH]; intros a Ha Ht; simpl.
  - repeat split; auto. now apply leb_refl.
  - inversion Ht as [|? ? Hy Ht']; subst.
    destruct (max2_ub a y Ha Hy) as [U1 U2].
    destruct (IH (max2 a y) (max2_notna a y Ha Hy) Ht') as [N [L F]].
    repeat split; auto.
    + eapply leb_trans; eauto.
    + constructor; [eapply leb_trans; eauto | exact F].
Qed.

Lemma dropna_notna (l : list float64) :
  Forall (fun x => notna x = true) (dropna l).
Proof. apply Forall_forall. intros x H. now apply filter_In in H. Qed.

(** The maximum of a column bounds each of its defined cells. *)
Lemma max_ub (l : list float64) (x : float64) :
  In x l -> notna x = true -> leb x (max l) = true.
Proof.
  intros Hin Hx. unfold max.
  assert (Hd : In x (dropna l)) by (apply filter_In; auto).
  pose proof (dropna_notna l) as Hn.
  destruct (dropna l) as [|a t]; [contradiction|].
  inversion Hn as [|? ? Ha Ht]; subst.
  destruct (fold_max2_ub t a Ha Ht) as [_ [L F]].
  destruct Hd as [<-|Hd]; [exact L|].
  rewrite Forall_forall in F. auto.
Qed.

Lemma add_nan_r (x : float64) : add x NaN = NaN.
Proof. now destruct x. Qed.

Lemma mul_nan_l (x : float64) : mul NaN x = NaN.
Proof. reflexivity. Qed.

(** A cell between 0 and a column maximum that equals 0 is a finite
    zero, and its quotient by that maximum is NaN. *)
Lemma div_zero_by_zero (v m : float64) :
  leb (Fin 0) v = true -> leb v m = true -> eqb m (Fin 0) = true ->
  div v m = NaN.
Proof.
  intros H0 Hm Hz. apply eqb_leb in Hz as [Hz1 Hz2].
  pose proof (leb_trans _ _ _ Hm Hz1) as Hv.
  destruct v as [q| | |]; simpl in *; try discriminate.
  destruct m as [p| | |]; simpl in *; try discriminate.
  apply Qle_bool_iff in H0, Hv, Hz1, Hz2.
  assert (Ep : (p == 0)%Q) by (apply Qle_antisym; auto).
  assert (Eq : (q == 0)%Q) by (apply Qle_antisym; auto).
  apply Qeq_bool_iff in Ep. rewrite Ep.
  unfold Qsgn. apply Qeq_alt in Eq. now rewrite Eq.
Qed.

End F64Facts.

(** * Whole columns: imputation and score *)

Module ColumnClaims.
Import F64Facts.




Lemma dropna_duration_cells (os : list (option N)) :
  F64.dropna (map duration_cell os) = map F64.of_N (defined os).
Proof.
  induction os as [|[n|] os IH]; simpl; [reflexivity | now rewrite <- IH | exact IH].
Qed.

Lemma fold_add_of_N (l : list N) (q : Q) :
  exists q', fold_left F64.add (map F64.of_N l) (Fin q) = Fin q' /\
             (q' == q + inject_Z (Z.of_N (Nsum l)))%Q.
Proof.
  revert q. induction l as [|n l IH]; intros q; simpl.
  - exists q. split; [reflexivity|]. unfold inject_Z. ring.
  - destruct (IH (q + inject_Z (Z.of_N n))%Q) as [q' [E Hq]].
    exists q'. split; [exact E|]. rewrite Hq.
    rewrite N2Z.inj_add, inject_Z_plus. ring.
Qed.

(** The mean of a column of parsed durations is the sum of the defined
    ones divided by their number. *)
Lemma mean_duration_cells (os : list (option N)) :
  defined os <> [] ->
  exists q, F64.mean (map duration_cell os) = Fin q /\
    (q == inject_Z (Z.of_N (Nsum (defined os)))
          / inject_Z (Z.of_nat (List.length (defined os))))%Q.
Proof.
  intros Hne. unfold F64.mean, F64.count, F64.sum.
  rewrite dropna_duration_cells, length_map.
  destruct (defined os) as [|n l] eqn:E; [congruence|].
  set (c := List.length (n :: l)). change (S (List.length l)) with c.
  destruct (fold_add_of_N (n :: l) 0) as [q' [Es Hq]]. rewrite Es.
  unfold F64.of_N, F64.div. rewrite nat_N_Z.
  assert (Hc : Qeq_bool (inject_Z (Z.of_nat c)) 0 = false).
  { apply not_true_iff_false. intros H. apply Qeq_bool_iff in H.
    unfold Qeq in H. simpl in H. subst c. simpl in H. lia. }
  rewrite Hc. eexists. split; [reflexivity|]. rewrite Hq. field.
  intros H. apply Qeq_bool_iff in H. congruence.
Qed.



End ColumnClaims.

Module ScoreClaims.
Import F64Facts.

Lemma score_row_nan (vmax : float64) (r : Movie) :
  F64.div (Voting r) vmax = NaN ->
  Voting_norm (score_row vmax r) = NaN /\ Score (score_row vmax r) = NaN.
Proof.
  intros E. unfold score_row. simpl. rewrite E. split; [reflexivity|].
  rewrite mul_nan_l. apply add_nan_r.
Qed.

(** C1, as the claim words it, fails on three rows without a vote: the
    score is computed without an error, and it is NaN on every row. *)
Lemma compute_score_three_zero :
  map Voting (map (clean_row read_int) three_zero_rows)
  = [Fin 0; Fin 0; Fin 0] /\
  map Voting_norm (scored read_int three_zero_rows) = [NaN; NaN; NaN] /\
  map Score (scored read_int three_zero_rows) = [NaN; NaN; NaN].
Proof. repeat split; reflexivity. Qed.

(** C1 (amended): on every batch of non-negative votes whose maximum is
    0, [compute_score] raises no error: it returns the batch, row for
    row, with [Voting_norm] and [Score] equal to NaN on every row. *)
Theorem compute_score_zero_votes : forall df : list Movie,
  Forall (fun r => F64.leb (Fin 0) (Voting r) = true) df ->
  F64.eqb (F64.max (map Voting df)) (Fin 0) = true ->
  List.length (compute_score df) = List.length df /\
  map Title (compute_score df) = map Title df /\
  Forall (fun r => Voting_norm r = NaN /\ Score r = NaN) (compute_score df).
Proof.
  intros df Hpos Hmax. unfold compute_score.
  set (vmax := F64.max (map Voting df)) in *.
  split; [apply length_map|]. split.
  - rewrite map_map. reflexivity.
  - apply Forall_forall. intros r' Hr'.
    apply in_map_iff in Hr' as [r [<- Hr]].
    rewrite Forall_forall in Hpos. pose proof (Hpos r Hr) as H0.
    apply score_row_nan. apply div_zero_by_zero; auto.
    apply max_ub.
    + now apply in_map.
    + now apply leb_notna in H0.
Qed.

Lemma compute_score_zero_votes_witness :
  Forall (fun r => Voting_norm r = NaN /\ Score r = NaN)
         (compute_score (map (clean_row read_int) three_zero_rows)).
Proof.
  apply (compute_score_zero_votes (map (clean_row read_int) three_zero_rows)).
  - repeat constructor.
  - reflexivity.
Defined.

End ScoreClaims.

(** * The filter *)

Module FilterClaims.

Lemma Subseq_filter {A : Type} (p : A -> bool) (l : list A) :
  Subseq (filter p l) l.
Proof.
  induction l as [|x l IH]; simpl; [constructor|].
  destruct (p x); now constructor.
Qed.

(** C4: a row is in the result of [filter_data] exactly when it is a row
    of the batch that passes the four tests (genre among the selected
    ones, rating, votes and duration within their inclusive ranges), and
    the result keeps the order of the batch. *)
Theorem filter_data_spec :
  forall (df : list Movie) (genres : list string)
         (rating_min rating_max : float64) (votes dur_range : float64 * float64),
  let out := filter_data df genres rating_min rating_max votes dur_range in
  (forall r : Movie,
      In r out <->
      In r df /\
      isin (Genre r) genres = true /\
      F64.between rating_min rating_max (Rating r) = true /\
      F64.between (fst votes) (snd votes) (Voting r) = true /\
      F64.between (fst dur_range) (snd dur_range) (Duration r) = true) /\
  Subseq out df.
Proof.
  intros df genres rmin rmax votes dur out. split.
  - intros r. unfold out, filter_data. rewrite filter_In. unfold filter_mask.
    rewrite !andb_true_iff. tauto.
  - apply Subseq_filter.
Qed.

End FilterClaims.

(** * Sorting and duplicates *)

Module DedupFacts.
Import F64Facts.

Lemma seen_iff (t : string) (seen : list string) :
  existsb (String.eqb t) seen = true <-> In t seen.
Proof.
  rewrite existsb_exists. split.
  - intros [x [Hx E]]. apply String.eqb_eq in E. now subst.
  - intros H. exists t. split; [exact H | apply String.eqb_refl].
Qed.

Lemma not_seen_iff (t : string) (seen : list string) :
  existsb (String.eqb t) seen = false <-> ~ In t seen.
Proof. rewrite <- seen_iff. now destruct (existsb (String.eqb t) seen). Qed.



Lemma drop_duplicates_from_In (seen : list string) (l : list Movie) (r : Movie) :
  In r (drop_duplicates_from seen l) -> In r l /\ ~ In (Title r) seen.
Proof.
  revert seen. induction l as [|x l IH]; intros seen; simpl; [tauto|].
  destruct (existsb (String.eqb (Title x)) seen) eqn:E.
  - intros H. apply IH in H. tauto.
  - intros [<-|H].
    + split; [now left | now apply not_seen_iff].
    + apply IH in H. simpl in H. tauto.
Qed.





Lemma filter_all {A : Type} (p : A -> bool) (l : list A) :
  Forall (fun x => p x = true) l -> filter p l = l.
Proof.
  induction 1 as [|x l Hx _ IH]; simpl; [reflexivity|]. now rewrite Hx, IH.
Qed.

Lemma filter_none {A : Type} (p : A -> bool) (l : list A) :
  Forall (fun x => p x = false) l -> filter p l = [].
Proof.
  induction 1 as [|x l Hx _ IH]; simpl; [reflexivity|]. now rewrite Hx.
Qed.



Lemma has_votes_rev (l : list Movie) : has_votes l -> has_votes (rev l).
Proof. unfold has_votes. apply Forall_rev. Qed.



End DedupFacts.

(** * Insertion sort meets the contract of the sort *)

Module InsertionSortFacts.
Import F64Facts DedupFacts.

Lemma insert_row_perm (r : Movie) (l : list Movie) :
  Permutation (r :: l) (insert_row r l).
Proof.
  induction l as [|x l IH]; simpl; [reflexivity|].
  destruct (F64.leb (Voting r) (Voting x)); [reflexivity|].
  rewrite perm_swap. now constructor.
Qed.

Lemma insertion_sort_perm (l : list Movie) : Permutation l (insertion_sort l).
Proof.
  induction l as [|r l IH]; simpl; [constructor|].
  rewrite <- insert_row_perm. now constructor.
Qed.

Lemma insert_row_sorted (r : Movie) (l : list Movie) :
  F64.notna (Voting r) = true -> has_votes l ->
  StronglySorted Voting_le l -> StronglySorted Voting_le (insert_row r l).
Proof.
  intros Hr Hl Hs. induction Hs as [|x l Hs IH Hf]; simpl.
  - repeat constructor.
  - inversion Hl as [|? ? Hx Hl']; subst.
    destruct (F64.leb (Voting r) (Voting x)) eqn:E.
    + constructor; [now constructor|]. constructor; [exact E|].
      rewrite Forall_forall in *. intros y Hy.
      eapply leb_trans; [exact E | now apply Hf].
    + constructor; [now apply IH|].
      eapply Permutation_Forall; [apply insert_row_perm|].
      constructor; [|exact Hf]. now apply leb_total.
Qed.

Lemma insertion_sort_sorted (l : list Movie) :
  has_votes l -> StronglySorted Voting_le (insertion_sort l).
Proof.
  induction 1 as [|r l Hr Hl IH]; simpl; [constructor|].
  apply insert_row_sorted; auto.
  eapply Permutation_Forall; [apply insertion_sort_perm | exact Hl].
Qed.



Lemma insertion_sort_sorts : sorts insertion_sort.
Proof.
  intros l Hl. split; [apply insertion_sort_perm | now apply insertion_sort_sorted].
Qed.


End InsertionSortFacts.

(** * The frame before [drop_duplicates] *)

Module FrameFacts.

Section Frame.
Variable str_to_float : string -> float64.

Lemma normalize_voting_is_integer (s : string) :
  exists n : N, normalize_voting s = F64.of_N n.
Proof.
  unfold normalize_voting. destruct (voting_digits s) as [run|].
  - exists (PyStr.int run). reflexivity.
  - exists 0%N. reflexivity.
Qed.

(** The later steps leave [Title], [Genre], [Rating] and [Voting] as
    [clean_row] set them. *)
Lemma scored_origin (rows : list RawMovie) (r : Movie) :
  In r (scored str_to_float rows) ->
  exists raw, In raw rows /\
    Title r = raw_Title raw /\
    Genre r = normalize_genre (raw_Genre raw) /\
    Rating r = normalize_rating str_to_float (raw_Rating raw) /\
    Voting r = normalize_voting (raw_Voting raw).
Proof.
  unfold scored, compute_score, impute_duration. rewrite !map_map.
  intros H. apply in_map_iff in H as [raw [<- Hraw]].
  exists raw. simpl. auto.
Qed.

Lemma scored_has_votes (rows : list RawMovie) :
  has_votes (scored str_to_float rows).
Proof.
  apply Forall_forall. intros r Hr.
  apply scored_origin in Hr as [raw [_ [_ [_ [_ E]]]]].
  rewrite E. destruct (normalize_voting_is_integer (raw_Voting raw)) as [n ->].
  reflexivity.
Qed.

End Frame.

End FrameFacts.

(** * [deduplicate] and the loaded frame *)

Module LoaderClaims.
Import F64Facts DedupFacts InsertionSortFacts FrameFacts.


Section Sorter.
Variable argsort : list Movie -> list Movie.
Hypothesis argsort_sorts : sorts argsort.

Lemma sort_values_keyed (df : list Movie) :
  has_votes df -> sort_values argsort df = rev (argsort (rev df)).
Proof.
  intros Hv. unfold sort_values.
  rewrite (filter_all _ df Hv), filter_none, app_nil_r; [reflexivity|].
  eapply Forall_impl; [|exact Hv]. intros r Hr. simpl in Hr.
  unfold F64.notna in Hr. now apply negb_true_iff in Hr.
Qed.

Lemma sort_values_perm (df : list Movie) :
  has_votes df -> Permutation df (sort_values argsort df).
Proof.
  intros Hv. rewrite (sort_values_keyed df Hv).
  destruct (argsort_sorts (rev df) (has_votes_rev df Hv)) as [P _].
  rewrite <- Permutation_rev, <- P. apply Permutation_rev.
Qed.




Lemma deduplicate_In (df : list Movie) (r : Movie) :
  has_votes df -> In r (deduplicate argsort df) -> In r df.
Proof.
  intros Hv H. apply drop_duplicates_from_In in H as [H _].
  eapply Permutation_in; [symmetry; apply sort_values_perm|]; eauto.
Qed.


End Sorter.


End LoaderClaims.

(** * The loaded frame, and cleaning run again on cleaned cells *)

Module RerunFacts.
Import PyStr Shape PyStrFacts.

























End RerunFacts.

Module FrameClaims.
Import F64Facts DedupFacts InsertionSortFacts FrameFacts LoaderClaims RerunFacts.

Lemma fillna_notna (v x : float64) :
  F64.isna v = false -> F64.isna (F64.fillna v x) = false.
Proof. unfold F64.fillna. destruct x; simpl; auto. Qed.

Lemma between_fillna (lo hi x : float64) :
  F64.between lo hi x = true -> F64.fillna (Fin 0) x = x.
Proof.
  unfold F64.between. intros H. apply andb_true_iff in H as [H _].
  apply leb_notna in H as [_ H]. destruct x; [reflexivity ..|discriminate H].
Qed.

(** C8, as the claim words it, fails on a row rated 11 in the source:
    the cleaned [Rating] is 11, which is neither in [0,10] nor 0. *)
Lemma rating_11_passes_through :
  map Rating (load_movies_data read_int insertion_sort rating_11_rows)
  = [Fin 11] /\
  F64.between (Fin 0) (Fin 10) (Fin 11) = false /\
  F64.eqb (Fin 11) (Fin 0) = false.
Proof. repeat split; reflexivity. Qed.

(** C8 (amended): every row of the loaded frame comes from a source row;
    its [Voting] is a non-negative integer; its [Rating] is never
    missing: it is 0 when the source value is not numeric and the source
    number itself otherwise, unclamped, so that it lies in [0,10]
    whenever the source number does. *)
Theorem clean_record_fields :
  forall (str_to_float : string -> float64) (argsort : list Movie -> list Movie),
  sorts argsort ->
  forall (rows : list RawMovie) (r : Movie),
  In r (load_movies_data str_to_float argsort rows) ->
  exists raw, In raw rows /\
    let x := to_numeric str_to_float (raw_Rating raw) in
    (exists n : N, Voting r = F64.of_N n) /\
    F64.isna (Rating r) = false /\
    (F64.isna x = true -> Rating r = Fin 0) /\
    (F64.isna x = false -> Rating r = x) /\
    (F64.between (Fin 0) (Fin 10) x = true ->
     F64.between (Fin 0) (Fin 10) (Rating r) = true).
Proof.
  intros f argsort Hs rows r Hr. unfold load_movies_data in Hr.
  apply (deduplicate_In argsort Hs) in Hr; [|apply scored_has_votes].
  apply scored_origin in Hr as [raw [Hraw [_ [_ [ER EV]]]]].
  exists raw. split; [exact Hraw|]. cbv zeta.
  rewrite ER, EV. unfold normalize_rating. repeat split.
  - apply normalize_voting_is_integer.
  - now apply fillna_notna.
  - intros H. unfold F64.fillna. now rewrite H.
  - intros H. unfold F64.fillna. now rewrite H.
  - intros H. now rewrite (between_fillna _ _ _ H).
Qed.

Lemma clean_record_fields_witness :
  exists raw, In raw rating_11_rows /\
    (exists n : N, Voting (clean_row read_int raw) = F64.of_N n) /\
    Rating (clean_row read_int raw) = Fin 11.
Proof.
  destruct (clean_record_fields read_int insertion_sort insertion_sort_sorts
              rating_11_rows
              (score_row (Fin 1200)
                 (clean_row read_int
                    (mkRaw "Alpha" "Drama" (CNum (Fin 11)) "1,200" "2h 15m")))
              (or_introl eq_refl)) as [raw [Hraw [Hv _]]].
  exists raw. split; [exact Hraw|].
  destruct Hraw as [<-|[]]. split; [exact Hv | reflexivity].
Defined.




End FrameClaims.

(** * Shortest and longest movies *)

Module ExtremesClaims.
Import F64Facts DedupFacts.

Lemma fold_pick_In (f : float64 -> float64 -> float64) (t : list float64)
    (a : float64) :
  (forall x y, f x y = x \/ f x y = y) -> In (fold_left f t a) (a :: t).
Proof.
  intros Hf. revert a. induction t as [|y t IH]; intros a; simpl; [auto|].
  destruct (IH (f a y)) as [E|H]; [|auto].
  rewrite <- E. destruct (Hf a y) as [->| ->]; auto.
Qed.

Lemma max2_pick (x y : float64) : F64.max2 x y = x \/ F64.max2 x y = y.
Proof. unfold F64.max2. destruct (F64.leb x y); auto. Qed.

Lemma min2_pick (x y : float64) : F64.min2 x y = x \/ F64.min2 x y = y.
Proof. unfold F64.min2. destruct (F64.leb x y); auto. Qed.

Lemma index_where_found (p : float64 -> bool) (l : list float64) (x : float64) :
  In x l -> p x = true ->
  exists i, index_where p l = Some i /\ (i < List.length l)%nat.
Proof.
  induction l as [|y l IH]; simpl; [tauto|]. intros Hin Hp.
  destruct (p y) eqn:E; [exists O; split; [reflexivity | lia]|].
  destruct Hin as [->|Hin]; [congruence|].
  destruct (IH Hin Hp) as [i [Ei Hi]]. exists (S i). rewrite Ei.
  split; [reflexivity | lia].
Qed.

(** On a column with a defined cell, [idxmin] and [idxmax] return a
    position of the column. *)
Lemma idx_extreme_found (col : list float64) :
  F64.dropna col <> [] ->
  (exists i, idxmin col = Returned i /\ (i < List.length col)%nat) /\
  (exists j, idxmax col = Returned j /\ (j < List.length col)%nat).
Proof.
  intros Hne. pose proof (dropna_notna col) as Hn.
  assert (Hsub : forall x, In x (F64.dropna col) -> In x col /\ F64.notna x = true).
  { intros x Hx. now apply filter_In in Hx. }
  unfold idxmin, idxmax, idx_extreme, F64.min, F64.max.
  destruct col as [|c col]; [now destruct Hne|].
  destruct (F64.dropna (c :: col)) as [|a t]; [now destruct Hne|].
  split.
  - destruct (Hsub _ (fold_pick_In F64.min2 t a min2_pick)) as [Hin Hna].
    destruct (index_where_found _ _ _ Hin (eqb_refl _ Hna)) as [i [E Hi]].
    exists i. now rewrite E.
  - destruct (Hsub _ (fold_pick_In F64.max2 t a max2_pick)) as [Hin Hna].
    destruct (index_where_found _ _ _ Hin (eqb_refl _ Hna)) as [i [E Hi]].
    exists i. now rewrite E.
Qed.

Lemma loc_found (df : list Movie) (i : nat) :
  (i < List.length df)%nat -> exists row, loc df i = Returned row.
Proof.
  intros H. unfold loc. destruct (nth_error df i) as [r|] eqn:E.
  - eexists. reflexivity.
  - apply nth_error_None in E. lia.
Qed.

(** C7: on an empty selection the block of [visualization_app.py] raises
    [ValueError] out of [idxmin], where the block of [filteratiom_app.py]
    shows the line "No movies match the filters.".  On a selection that
    is not empty, with its durations defined, both show a table of two
    rows. *)
Theorem shortest_longest_empty :
  shortest_longest [] = Raised ValueError /\
  shortest_longest_guarded [] = Returned (Text "No movies match the filters.") /\
  forall df : list Movie,
    df <> [] -> Forall (fun r => F64.notna (Duration r) = true) df ->
    exists a b,
      shortest_longest df = Returned (Table [a; b]) /\
      shortest_longest_guarded df = Returned (Table [a; b]).
Proof.
  split; [reflexivity|]. split; [reflexivity|].
  intros df Hne Hd.
  assert (Hcol : F64.dropna (map Duration df) <> []).
  { unfold F64.dropna. rewrite filter_all.
    - destruct df; [congruence | discriminate].
    - apply Forall_map. exact Hd. }
  destruct (idx_extreme_found _ Hcol) as [[i [Ei Hi]] [j [Ej Hj]]].
  rewrite length_map in Hi, Hj.
  destruct (loc_found df i Hi) as [a Ea], (loc_found df j Hj) as [b Eb].
  exists a, b.
  assert (E : shortest_longest df = Returned (Table [a; b])).
  { unfold shortest_longest. rewrite Ei. simpl. rewrite Ea. simpl.
    rewrite Ej. simpl. rewrite Eb. reflexivity. }
  split; [exact E|]. destruct df; [congruence | exact E].
Qed.

End ExtremesClaims.

(** * Further properties of the cleaning of one cell *)

Module CellExtras.
Import PyStr Shape PyStrFacts RerunFacts.

Lemma findall_scan_cons (x c : ascii) (run r : string) :
  findall_scan x run (String c r) =
  if is_digit c then findall_scan x (run ++ String c EmptyString) r
  else if Ascii.eqb c x && negb (String.eqb run EmptyString)
       then Some run
       else findall_scan x EmptyString r.
Proof. reflexivity. Qed.

Lemma findall_scan_replace_h (x : ascii) (s run : string) :
  Ascii.eqb " " x = false ->
  findall_scan x run (PyStr.replace "h" "h " s) = findall_scan x run s.
Proof.
  intros Hx. revert run. induction s as [|c s IH]; intros run; [reflexivity|].
  destruct (Ascii.eqb_spec c "h") as [->|Hc].
  - change (PyStr.replace "h" "h " (String "h" s))
      with (String "h" (String " " (PyStr.replace "h" "h " s))).
    rewrite !(findall_scan_cons x "h").
    change (is_digit "h") with false. cbv iota.
    destruct (Ascii.eqb "h" x && negb (String.eqb run ""))%bool;
      [reflexivity|].
    rewrite findall_scan_cons. change (is_digit " ") with false.
    rewrite Hx. apply IH.
  - assert (E : PyStr.replace "h" "h " (String c s)
                = String c (PyStr.replace "h" "h " s)).
    { simpl. apply Ascii.eqb_neq in Hc. now rewrite Hc. }
    rewrite E, !findall_scan_cons. destruct (is_digit c); [apply IH|].
    destruct (Ascii.eqb c x && negb (String.eqb run ""))%bool;
      [reflexivity | apply IH].
Qed.

(** X1: the space that line 37 puts after every ["h"] changes no result of
    [parse_duration]. *)
Theorem clean_duration_without_replace : forall s : string,
  parse_duration (PyStr.replace "h" "h " s) = parse_duration s /\
  clean_duration s = duration_cell (parse_duration s).
Proof.
  intros s.
  assert (E : parse_duration (PyStr.replace "h" "h " s) = parse_duration s).
  { unfold parse_duration, findall_first.
    now rewrite !findall_scan_replace_h by reflexivity. }
  split; [exact E|]. unfold clean_duration. now rewrite E.
Qed.

(** A defined result of [parse_duration] is never 0. *)
Lemma parse_duration_positive (d : string) (n : N) :
  parse_duration d = Some n -> (0 < n)%N.
Proof.
  rewrite DurationFacts.parse_duration_unfold. cbv zeta.
  destruct (N.eqb_spec
              (value_of (findall_first "h" d) * 60
               + value_of (findall_first "m" d)) 0); [discriminate|].
  intros [= <-]. lia.
Qed.

End CellExtras.

(** * Further properties of the filters and of block 8 *)

Module FilterExtras.
Import F64Facts DedupFacts ExtremesClaims.

Lemma min2_lb (x y : float64) :
  F64.notna x = true -> F64.notna y = true ->
  F64.leb (F64.min2 x y) x = true /\ F64.leb (F64.min2 x y) y = true.
Proof.
  intros Hx Hy. unfold F64.min2. destruct (F64.leb x y) eqn:E.
  - split; [now apply leb_refl | exact E].
  - split; [now apply leb_total | now apply leb_refl].
Qed.

Lemma fold_min2_lb (t : list float64) (a : float64) :
  F64.notna a = true -> Forall (fun x => F64.notna x = true) t ->
  F64.leb (fold_left F64.min2 t a) a = true /\
  Forall (fun x => F64.leb (fold_left F64.min2 t a) x = true) t.
Proof.
  revert a. induction t as [|y t IH]; intros a Ha Ht; simpl.
  - split; [now apply leb_refl | constructor].
  - inversion Ht as [|? ? Hy Ht']; subst.
    destruct (min2_lb a y Ha Hy) as [L1 L2].
    assert (Hm : F64.notna (F64.min2 a y) = true)
      by (unfold F64.min2; now destruct (F64.leb a y)).
    destruct (IH (F64.min2 a y) Hm Ht') as [L F].
    split; [eapply leb_trans; eauto|].
    constructor; [eapply leb_trans; eauto | exact F].
Qed.

(** The minimum of a column is below each of its defined cells. *)
Lemma min_lb (l : list float64) (x : float64) :
  In x l -> F64.notna x = true -> F64.leb (F64.min l) x = true.
Proof.
  intros Hin Hx. unfold F64.min.
  assert (Hd : In x (F64.dropna l)) by (apply filter_In; auto).
  pose proof (dropna_notna l) as Hn.
  destruct (F64.dropna l) as [|a t]; [contradiction|].
  inversion Hn as [|? ? Ha Ht]; subst.
  destruct (fold_min2_lb t a Ha Ht) as [L F].
  destruct Hd as [<-|Hd]; [exact L|].
  rewrite Forall_forall in F. auto.
Qed.

Lemma between_notna (lo hi x : float64) :
  F64.between lo hi x = true -> F64.notna x = true.
Proof.
  unfold F64.between. intros H. apply andb_true_iff in H as [H _].
  now apply leb_notna in H.
Qed.

Lemma between_ordered (lo hi x : float64) :
  F64.between lo hi x = true -> F64.leb lo hi = true.
Proof.
  unfold F64.between. intros H. apply andb_true_iff in H as [H1 H2].
  eapply leb_trans; eauto.
Qed.

Lemma between_no_ceiling (lo x : float64) :
  F64.between lo PInf x = F64.leb lo x.
Proof. unfold F64.between. destruct lo, x; simpl; try reflexivity; apply andb_true_r. Qed.

Lemma visualization_mask_durations (selected_genre : list string)
    (min_rating min_votes : float64) (duration_range : float64 * float64)
    (r : Movie) :
  visualization_mask selected_genre min_rating min_votes duration_range r = true ->
  F64.notna (Duration r) = true.
Proof.
  unfold visualization_mask. rewrite !andb_true_iff. intros [_ M].
  now apply between_notna in M.
Qed.

(** X2: the filter of [visualization_app.py] is the filter of
    [filteratiom_app.py] with the two ceilings at infinity. *)
Theorem visualization_filter_as_filter_data :
  forall (df : list Movie) (selected_genre : list string)
         (min_rating min_votes : float64) (duration_range : float64 * float64),
  visualization_filter df selected_genre min_rating min_votes duration_range
  = filter_data df selected_genre min_rating PInf (min_votes, PInf)
                duration_range.
Proof.
  intros. unfold visualization_filter, filter_data. apply filter_ext.
  intros r. unfold visualization_mask, filter_mask. simpl fst. simpl snd.
  now rewrite !between_no_ceiling.
Qed.

(** X3: a range whose floor is above its ceiling, or with a missing bound,
    selects nothing: [filter_data] returns the empty frame. *)
Theorem filter_data_inverted_range :
  forall (df : list Movie) (genres : list string)
         (rating_min rating_max : float64) (votes dur_range : float64 * float64),
  F64.leb rating_min rating_max = false \/
  F64.leb (fst votes) (snd votes) = false \/
  F64.leb (fst dur_range) (snd dur_range) = false ->
  filter_data df genres rating_min rating_max votes dur_range = [].
Proof.
  intros df genres rmin rmax votes dur H. unfold filter_data.
  apply filter_none. apply Forall_forall. intros r _.
  apply not_true_iff_false. intros M. unfold filter_mask in M.
  rewrite !andb_true_iff in M. destruct M as [[[_ M1] M2] M3].
  apply between_ordered in M1, M2, M3.
  destruct H as [H|[H|H]]; congruence.
Qed.

Lemma filter_data_inverted_range_witness :
  filter_data sample_frame ["drama"] (Fin 9) (Fin 7)
              (Fin 0, Fin 5000) (Fin 0, Fin 300) = [].
Proof.
  apply filter_data_inverted_range. left. reflexivity.
Defined.

Lemma shortest_longest_table (df : list Movie) :
  df <> [] -> Forall (fun r => F64.notna (Duration r) = true) df ->
  exists a b, shortest_longest df = Returned (Table [a; b]).
Proof.
  intros Hne Hd.
  assert (Hcol : F64.dropna (map Duration df) <> []).
  { unfold F64.dropna. rewrite filter_all.
    - destruct df; [congruence | discriminate].
    - apply Forall_map. exact Hd. }
  destruct (idx_extreme_found _ Hcol) as [[i [Ei Hi]] [j [Ej Hj]]].
  rewrite length_map in Hi, Hj.
  destruct (loc_found df i Hi) as [a Ea], (loc_found df j Hj) as [b Eb].
  exists a, b. unfold shortest_longest.
  rewrite Ei. simpl. rewrite Ea. simpl. rewrite Ej. simpl. now rewrite Eb.
Qed.

Lemma filter_data_durations (df : list Movie) (genres : list string)
    (rmin rmax : float64) (votes dur : float64 * float64) :
  Forall (fun r => F64.notna (Duration r) = true)
         (filter_data df genres rmin rmax votes dur).
Proof.
  apply Forall_forall. intros r Hr. apply filter_In in Hr as [_ M].
  unfold filter_mask in M. rewrite !andb_true_iff in M.
  destruct M as [_ M]. now apply between_notna in M.
Qed.

(** X4: Block 8 of [filteratiom_app.py] never raises on a result of
    [filter_data]: it shows its line of text when the result is empty and
    a table of two rows otherwise. *)
Theorem shortest_longest_guarded_total :
  forall (df : list Movie) (genres : list string)
         (rating_min rating_max : float64) (votes dur_range : float64 * float64),
  let filtered_df :=
    filter_data df genres rating_min rating_max votes dur_range in
  (filtered_df = [] /\
   shortest_longest_guarded filtered_df
   = Returned (Text "No movies match the filters.")) \/
  (filtered_df <> [] /\
   exists a b, shortest_longest_guarded filtered_df = Returned (Table [a; b])).
Proof.
  intros df genres rmin rmax votes dur filtered_df.
  pose proof (filter_data_durations df genres rmin rmax votes dur) as Hd.
  fold filtered_df in Hd. destruct filtered_df as [|r t] eqn:E.
  - left. split; reflexivity.
  - right. split; [discriminate|].
    destruct (shortest_longest_table (r :: t) ltac:(discriminate) Hd)
      as [a [b Eab]].
    exists a, b. exact Eab.
Qed.

(** X5: Block 8 of [visualization_app.py] raises exactly when the selection is
    empty, and the exception is then [ValueError]; on any other selection
    it shows a table of two rows. *)
Theorem shortest_longest_raises_iff_empty :
  forall (df : list Movie) (selected_genre : list string)
         (min_rating min_votes : float64) (duration_range : float64 * float64),
  let filtered_df :=
    visualization_filter df selected_genre min_rating min_votes duration_range in
  (filtered_df = [] <-> shortest_longest filtered_df = Raised ValueError) /\
  (filtered_df <> [] <->
   exists a b, shortest_longest filtered_df = Returned (Table [a; b])).
Proof.
  intros df g rmin vmin dur filtered_df.
  assert (Hd : Forall (fun r => F64.notna (Duration r) = true) filtered_df).
  { unfold filtered_df, visualization_filter. apply Forall_forall.
    intros x Hx. apply filter_In in Hx as [_ M].
    now apply visualization_mask_durations in M. }
  destruct filtered_df as [|r t] eqn:E.
  - split; split; try reflexivity; try congruence.
    intros [a [b H]]. discriminate H.
  - destruct (shortest_longest_table (r :: t) ltac:(discriminate) Hd)
      as [a [b Eab]].
    split; split; try discriminate.
    + rewrite Eab. discriminate.
    + intros _. now exists a, b.
Qed.

End FilterExtras.

(** * What block 8 shows *)

Module SidebarExtras.
Import F64Facts DedupFacts ExtremesClaims FilterExtras.

Lemma index_where_sound (p : float64 -> bool) (l : list float64) (i : nat) :
  index_where p l = Some i ->
  exists x, nth_error l i = Some x /\ p x = true.
Proof.
  revert i. induction l as [|y l IH]; intros i; simpl; [discriminate|].
  destruct (p y) eqn:E.
  - intros [= <-]. exists y. auto.
  - destruct (index_where p l) as [j|]; [|discriminate].
    intros [= <-]. destruct (IH j eq_refl) as [x Hx]. exists x. exact Hx.
Qed.

Lemma idx_extreme_sound (ext : list float64 -> float64) (col : list float64)
    (i : nat) :
  idx_extreme ext col = Returned i ->
  exists x, nth_error col i = Some x /\ F64.eqb (ext col) x = true.
Proof.
  unfold idx_extreme. destruct col as [|c col]; [discriminate|].
  destruct (index_where (F64.eqb (ext (c :: col))) (c :: col)) as [j|] eqn:E;
    [|discriminate].
  intros [= <-]. now apply index_where_sound.
Qed.

Lemma loc_sound (df : list Movie) (i : nat) (row : string * string * float64) :
  loc df i = Returned row ->
  exists r, nth_error df i = Some r /\ row = (Title r, Genre r, Duration r).
Proof.
  unfold loc. destruct (nth_error df i) as [r|]; [|discriminate].
  intros [= <-]. now exists r.
Qed.

(** X6: the two rows of the table of block 8 are rows of the selection; the
    first has the least [Duration] of the selection and the second the
    greatest. *)
Theorem shortest_longest_extremes :
  forall (df : list Movie) (a b : string * string * float64),
  shortest_longest df = Returned (Table [a; b]) ->
  (exists ra, In ra df /\ a = (Title ra, Genre ra, Duration ra)) /\
  (exists rb, In rb df /\ b = (Title rb, Genre rb, Duration rb)) /\
  forall r, In r df -> F64.notna (Duration r) = true ->
    F64.leb (snd a) (Duration r) = true /\
    F64.leb (Duration r) (snd b) = true.
Proof.
  intros df a b H. unfold shortest_longest in H.
  destruct (idxmin (map Duration df)) as [i|] eqn:Ei; [|discriminate].
  simpl in H. destruct (loc df i) as [a'|] eqn:Ea; [|discriminate].
  simpl in H. destruct (idxmax (map Duration df)) as [j|] eqn:Ej; [|discriminate].
  simpl in H. destruct (loc df j) as [b'|] eqn:Eb; [|discriminate].
  simpl in H. injection H as <- <-.
  apply loc_sound in Ea as [ra [Na ->]], Eb as [rb [Nb ->]].
  apply idx_extreme_sound in Ei as [x [Nx Ex]], Ej as [y [Ny Ey]].
  rewrite nth_error_map, Na in Nx. rewrite nth_error_map, Nb in Ny.
  simpl in Nx, Ny. injection Nx as <-. injection Ny as <-.
  apply eqb_leb in Ex as [_ Ex], Ey as [Ey _].
  split; [exists ra; split; [eapply nth_error_In; eauto | reflexivity]|].
  split; [exists rb; split; [eapply nth_error_In; eauto | reflexivity]|].
  intros r Hr Hn. simpl. split.
  - eapply leb_trans; [exact Ex|]. apply min_lb; [now apply in_map | exact Hn].
  - eapply leb_trans; [|exact Ey]. apply max_ub; [now apply in_map | exact Hn].
Qed.

Lemma shortest_longest_extremes_witness :
  exists ra, In ra sample_frame /\
    ("Beta", "action", Fin 90) = (Title ra, Genre ra, Duration ra).
Proof.
  exact (proj1 (shortest_longest_extremes sample_frame
                  ("Beta", "action", Fin 90) ("Gamma", "drama", Fin 150)
                  eq_refl)).
Defined.

End SidebarExtras.

(** * Further properties of the loaded frame *)

Module FrameExtras.
Import F64Facts DedupFacts FrameFacts ExtremesClaims.

Lemma max_In (l : list float64) :
  F64.dropna l <> [] -> In (F64.max l) l /\ F64.notna (F64.max l) = true.
Proof.
  intros Hne. unfold F64.max.
  assert (Hsub : forall x, In x (F64.dropna l) -> In x l /\ F64.notna x = true)
    by (intros x Hx; now apply filter_In in Hx).
  destruct (F64.dropna l) as [|a t]; [congruence|].
  apply Hsub. apply (fold_pick_In F64.max2 t a max2_pick).
Qed.

Lemma of_N_leb (n m : N) : F64.leb (F64.of_N n) (F64.of_N m) = true <-> (n <= m)%N.
Proof.
  unfold F64.of_N. cbn [F64.leb]. rewrite Qle_bool_iff.
  unfold Qle, inject_Z. cbn [Qnum Qden]. lia.
Qed.

Lemma inject_N_pos (n : N) : (0 < n)%N -> (0 < inject_Z (Z.of_N n))%Q.
Proof. intros H. change 0%Q with (inject_Z 0). rewrite <- Zlt_Qlt. lia. Qed.

Lemma inject_N_le (n m : N) :
  (n <= m)%N -> (inject_Z (Z.of_N n) <= inject_Z (Z.of_N m))%Q.
Proof. intros H. rewrite <- Zle_Qle. lia. Qed.

Lemma of_N_div (n m : N) :
  (0 < m)%N -> (n <= m)%N ->
  exists q, F64.div (F64.of_N n) (F64.of_N m) = Fin q /\ (0 <= q <= 1)%Q /\
            (n = m -> (q == 1)%Q).
Proof.
  intros Hm Hn. unfold F64.of_N, F64.div.
  assert (Hpos : (0 < inject_Z (Z.of_N m))%Q) by now apply inject_N_pos.
  assert (Hz : Qeq_bool (inject_Z (Z.of_N m)) 0 = false).
  { apply not_true_iff_false. intros H. apply Qeq_bool_iff in H.
    rewrite H in Hpos. now apply Qlt_irrefl in Hpos. }
  rewrite Hz. eexists. split; [reflexivity|]. split; [split|].
  - apply Qle_shift_div_l; [exact Hpos|]. rewrite Qmult_0_l.
    apply (inject_N_le 0 n). lia.
  - apply Qle_shift_div_r; [exact Hpos|]. rewrite Qmult_1_l.
    now apply inject_N_le.
  - intros ->. field. intros H. rewrite H in Hpos. now apply Qlt_irrefl in Hpos.
Qed.

Lemma in_unit_Fin (q : Q) : (0 <= q <= 1)%Q -> in_unit (Fin q).
Proof. intros [H0 H1]. split; simpl; now apply Qle_bool_iff. Qed.

Lemma rating_norm_in_unit (x : float64) :
  F64.between (Fin 0) (Fin 10) x = true ->
  exists q, F64.div x ten = Fin q /\ (0 <= q <= 1)%Q.
Proof.
  unfold F64.between. intros H. apply andb_true_iff in H as [H0 H1].
  destruct x as [q| | |]; simpl in H0, H1; try discriminate.
  apply Qle_bool_iff in H0, H1. exists (q / (10 # 1))%Q.
  split; [reflexivity|]. split.
  - apply Qle_shift_div_l; [reflexivity|]. lra.
  - apply Qle_shift_div_r; [reflexivity|]. lra.
Qed.

(** X7: on a batch with at least one vote, [Voting_norm] lies between 0 and 1
    on every row and is 1 on a row with the most votes; where [Rating]
    lies between 0 and 10, so do [Rating_norm] and [Score] lie between 0
    and 1. *)
Theorem score_in_unit : forall df : list Movie,
  (forall r, In r df -> exists n : N, Voting r = F64.of_N n) ->
  (exists r, In r df /\ F64.leb (Voting r) (Fin 0) = false) ->
  (forall r, In r (compute_score df) ->
     in_unit (Voting_norm r) /\
     (F64.between (Fin 0) (Fin 10) (Rating r) = true ->
      in_unit (Rating_norm r) /\ in_unit (Score r))) /\
  exists r, In r (compute_score df) /\ F64.eqb (Voting_norm r) (Fin 1) = true.
Proof.
  intros df Hint [r0 [Hr0 Hpos]].
  destruct (Hint r0 Hr0) as [n0 E0].
  assert (Hn0 : (0 < n0)%N).
  { rewrite E0 in Hpos. change (Fin 0) with (F64.of_N 0) in Hpos.
    destruct (N.eq_dec n0 0) as [->|]; [discriminate Hpos | lia]. }
  assert (Hne : F64.dropna (map Voting df) <> []).
  { intros H. assert (Hin : In (Voting r0) (F64.dropna (map Voting df))).
    { apply filter_In. split; [now apply in_map | now rewrite E0]. }
    rewrite H in Hin. contradiction. }
  destruct (max_In _ Hne) as [Hmax _].
  apply in_map_iff in Hmax as [rm [Em Hrm]].
  destruct (Hint rm Hrm) as [m Evm].
  assert (Hub : forall r k, In r df -> Voting r = F64.of_N k -> (k <= m)%N).
  { intros r k Hr Ek. apply of_N_leb. rewrite <- Ek, <- Evm, Em.
    apply max_ub; [now apply in_map | now rewrite Ek]. }
  assert (Hm : (0 < m)%N) by (pose proof (Hub r0 n0 Hr0 E0); lia).
  unfold compute_score. rewrite <- Em, Evm. split.
  - intros r' Hr'. apply in_map_iff in Hr' as [r [<- Hr]].
    destruct (Hint r Hr) as [k Ek].
    destruct (of_N_div k m Hm (Hub r k Hr Ek)) as [q [Eq [Hq _]]].
    unfold score_row. simpl. rewrite Ek, Eq. split; [now apply in_unit_Fin|].
    intros Hb. destruct (rating_norm_in_unit _ Hb) as [p [Ep Hp]].
    rewrite Ep. split; [now apply in_unit_Fin|].
    unfold half. simpl. apply in_unit_Fin. lra.
  - exists (score_row (F64.of_N m) rm). split; [now apply in_map|].
    destruct (of_N_div m m Hm (N.le_refl m)) as [q [Eq [_ H1]]].
    unfold score_row. simpl. rewrite Evm, Eq.
    specialize (H1 eq_refl). unfold F64.eqb. simpl.
    apply andb_true_iff. split; apply Qle_bool_iff; rewrite H1; apply Qle_refl.
Qed.

Lemma score_in_unit_witness :
  exists r, In r (compute_score sample_frame) /\
            F64.eqb (Voting_norm r) (Fin 1) = true.
Proof.
  apply (score_in_unit sample_frame).
  - intros r [<-|[<-|[<-|[]]]];
      [exists 1200%N | exists 3000%N | exists 500%N]; reflexivity.
  - exists (mkMovie "Alpha" "drama" (Fin 7) (Fin 1200) (Fin 120) NaN NaN NaN).
    split; [now left | reflexivity].
Defined.

Section Durations.
Variable str_to_float : string -> float64.

Lemma scored_Duration (rows : list RawMovie) (r : Movie) :
  In r (scored str_to_float rows) ->
  exists raw, In raw rows /\
    Duration r =
    F64.fillna (F64.mean (map clean_duration (map raw_Duration rows)))
               (clean_duration (raw_Duration raw)).
Proof.
  unfold scored, compute_score, impute_duration. rewrite !map_map.
  intros H. apply in_map_iff in H as [raw [<- Hraw]].
  exists raw. split; [exact Hraw | reflexivity].
Qed.

Lemma Nsum_positive (l : list N) :
  l <> [] -> Forall (fun n => (0 < n)%N) l -> (0 < Nsum l)%N.
Proof.
  destruct l as [|n l]; [congruence|]. intros _ H.
  inversion H; subst. unfold Nsum. simpl. fold (Nsum l). lia.
Qed.

Lemma defined_positive (texts : list string) :
  Forall (fun n => (0 < n)%N)
         (defined (map (fun t => parse_duration (PyStr.replace "h" "h " t)) texts)).
Proof.
  induction texts as [|t texts IH]; simpl; [constructor|].
  destruct (parse_duration (PyStr.replace "h" "h " t)) as [n|] eqn:E; [|exact IH].
  constructor; [|exact IH]. eapply CellExtras.parse_duration_positive; eauto.
Qed.

Lemma defined_nonempty (texts : list string) (t : string) :
  In t texts -> clean_duration t <> NaN ->
  defined (map (fun t => parse_duration (PyStr.replace "h" "h " t)) texts) <> [].
Proof.
  induction texts as [|u texts IH]; simpl; [tauto|].
  intros [->|Hin] Hd.
  - unfold clean_duration in Hd.
    destruct (parse_duration (PyStr.replace "h" "h " t)); [discriminate|].
    now destruct Hd.
  - destruct (parse_duration (PyStr.replace "h" "h " u)); [discriminate | auto].
Qed.

(** X8: as soon as one duration of the batch can be parsed, every row of the
    frame has a defined, positive [Duration]. *)
Theorem durations_positive : forall (rows : list RawMovie),
  (exists raw, In raw rows /\ clean_duration (raw_Duration raw) <> NaN) ->
  forall r, In r (scored str_to_float rows) ->
    exists q, Duration r = Fin q /\ (0 < q)%Q.
Proof.
  intros rows [raw0 [Hraw0 Hd0]] r Hr.
  set (texts := map raw_Duration rows).
  set (os := map (fun t => parse_duration (PyStr.replace "h" "h " t)) texts).
  assert (Ecol : map clean_duration texts = map duration_cell os).
  { unfold os. rewrite map_map. reflexivity. }
  assert (Hne : defined os <> []).
  { apply (defined_nonempty texts (raw_Duration raw0)); [|exact Hd0].
    unfold texts. now apply in_map. }
  destruct (ColumnClaims.mean_duration_cells os Hne) as [q [Em Hq]].
  assert (Hqpos : (0 < q)%Q).
  { rewrite Hq. apply Qlt_shift_div_l.
    - change 0%Q with (inject_Z 0). rewrite <- Zlt_Qlt.
      destruct (defined os); [congruence|]. simpl List.length. lia.
    - pose proof (Nsum_positive _ Hne (defined_positive texts)) as Hs.
      fold os in Hs. rewrite Qmult_0_l. now apply inject_N_pos. }
  apply scored_Duration in Hr as [raw [Hraw ->]]. fold texts.
  rewrite Ecol, Em. unfold clean_duration.
  destruct (parse_duration (PyStr.replace "h" "h " (raw_Duration raw)))
    as [n|] eqn:E; simpl.
  - eexists. split; [reflexivity|].
    apply CellExtras.parse_duration_positive in E. now apply inject_N_pos.
  - exists q. split; [reflexivity | exact Hqpos].
Qed.

End Durations.

Lemma durations_positive_witness :
  Forall (fun r => exists q, Duration r = Fin q /\ (0 < q)%Q)
         (scored read_int tied_rows).
Proof.
  apply Forall_forall.
  apply (durations_positive read_int tied_rows).
  exists (mkRaw "Alpha" "Drama" (CNum (Fin 7)) "1,200" "2h").
  split; [now left | discriminate].
Defined.

End FrameExtras.
